(** * Django-ogone: the Ogone signature of [django_ogone/security.py]

    A shallow embedding of the class [OgoneSignature] and the proofs of the
    properties its specification states about it.

    The module is Python 2 code (its doctests print byte strings without a
    prefix, the class defines [__unicode__]), so the embedding follows
    Python 2: text is the byte string type [str], [str.upper] touches the
    ASCII letters only, byte strings compare bytewise, and values of
    different types compare by the fixed rule of the interpreter (numbers
    before strings, [None] before everything). *)

From Stdlib Require Import NArith ZArith List String Ascii Bool Lia.
From Stdlib Require Import Permutation Sorted DecimalString.
Import ListNotations.

Local Open Scope string_scope.
Local Open Scope list_scope.

(** ** The [hashlib] digests used by [_sign_string]

    [hashlib] is Python's standard library; its [sha1], [sha256] and
    [sha512] are the functions of FIPS 180-4, written here over lists of
    bytes. *)

Module hashlib.

Local Open Scope N_scope.

(** Words of [w] bits are numbers below [2 ^ w]; every operation that can
    leave that range is followed by its wrap-around. *)
Section Words.
Variable w : N.

Definition wrap (x : N) : N := N.land x (N.ones w).
Definition add (x y : N) : N := wrap (x + y).
Definition rotl (n x : N) : N :=
  wrap (N.lor (N.shiftl x n) (N.shiftr x (w - n))).
Definition rotr (n x : N) : N := rotl (w - n) x.
Definition shr (n x : N) : N := N.shiftr x n.
Definition inv (x : N) : N := N.lxor x (N.ones w).

Definition Ch (x y z : N) : N := N.lxor (N.land x y) (N.land (inv x) z).
Definition Maj (x y z : N) : N :=
  N.lxor (N.lxor (N.land x y) (N.land x z)) (N.land y z).
Definition Parity (x y z : N) : N := N.lxor (N.lxor x y) z.
End Words.

(** Big-endian conversions between byte lists and numbers. *)
Definition be_to_N (bs : list N) : N :=
  fold_left (fun acc b => acc * 256 + b) bs 0.

Fixpoint N_to_be (n : nat) (v : N) : list N :=
  match n with
  | O => []
  | S n' => N_to_be n' (N.shiftr v 8) ++ [N.land v 255]
  end.

(** Cutting a list into consecutive pieces of [n] elements. *)
Fixpoint chunks_fuel {A} (fuel n : nat) (l : list A) : list (list A) :=
  match fuel, l with
  | O, _ | _, [] => []
  | S fuel', _ => firstn n l :: chunks_fuel fuel' n (skipn n l)
  end.

Definition chunks {A} (n : nat) (l : list A) : list (list A) :=
  chunks_fuel (List.length l) n l.

(** Message padding: a [0x80] byte, zero bytes up to the block boundary
    less the List.length field, and the bit List.length on [lenbytes] bytes. *)
Definition pad (blk lenbytes : nat) (msg : list N) : list N :=
  let used := (List.length msg + 1 + lenbytes)%nat in
  let zeros := ((blk - used mod blk) mod blk)%nat in
  msg ++ [128] ++ repeat 0 zeros
      ++ N_to_be lenbytes (8 * N.of_nat (List.length msg)).

(** The message schedule, kept newest word first while it grows:
    [step] computes word [t] from the words before it. *)
Fixpoint extend (n : nat) (step : list N -> N) (rev_ws : list N) : list N :=
  match n with
  | O => rev_ws
  | S n' => extend n' step (step rev_ws :: rev_ws)
  end.

Definition schedule (wordbytes total : nat) (step : list N -> N)
           (block : list N) : list N :=
  let ws := map be_to_N (chunks wordbytes block) in
  rev (extend (total - List.length ws) step (rev ws)).

Definition at_ (l : list N) (i : nat) : N := nth i l 0.

Definition digest_hash (blk lenbytes wordbytes : nat)
           (compress : list N -> list N -> list N) (h0 : list N)
           (msg : list N) : list N :=
  let h := fold_left compress (chunks blk (pad blk lenbytes msg)) h0 in
  flat_map (N_to_be wordbytes) h.

(** *** SHA-1 *)

Definition sha1_step (r : list N) : N :=
  rotl 32 1 (N.lxor (N.lxor (at_ r 2) (at_ r 7))
                    (N.lxor (at_ r 13) (at_ r 15))).

Definition sha1_f (t : nat) (b c d : N) : N :=
  if (t <? 20)%nat then Ch 32 b c d
  else if (t <? 40)%nat then Parity b c d
  else if (t <? 60)%nat then Maj b c d
  else Parity b c d.

Definition sha1_k (t : nat) : N :=
  if (t <? 20)%nat then 0x5a827999
  else if (t <? 40)%nat then 0x6ed9eba1
  else if (t <? 60)%nat then 0x8f1bbcdc
  else 0xca62c1d6.

Definition sha1_round (st : list N) (tw : nat * N) : list N :=
  let '(t, wt) := tw in
  let a := at_ st 0 in let b := at_ st 1 in let c := at_ st 2 in
  let d := at_ st 3 in let e := at_ st 4 in
  let tmp := add 32 (add 32 (add 32 (add 32 (rotl 32 5 a) (sha1_f t b c d)) e)
                         (sha1_k t)) wt in
  [tmp; a; rotl 32 30 b; c; d].

Definition sha1_compress (h block : list N) : list N :=
  let ws := schedule 4 80 sha1_step block in
  let st := fold_left sha1_round (combine (seq 0 80) ws) h in
  map (fun p => add 32 (fst p) (snd p)) (combine h st).

Definition sha1_h0 : list N :=
  [ 0x67452301; 0xefcdab89; 0x98badcfe; 0x10325476; 0xc3d2e1f0 ].

Definition sha1 : list N -> list N :=
  digest_hash 64 8 4 sha1_compress sha1_h0.

(** *** SHA-256 and SHA-512

    The two differ in the word size, the rotation amounts, the number of
    rounds and the constants; the round itself is shared. *)
Section Sha2.
Variable w : N.
Variables (S0 S1 s0 s1 : N -> N).
Variable K : list N.

Definition sha2_step (r : list N) : N :=
  add w (add w (add w (s1 (at_ r 1)) (at_ r 6)) (s0 (at_ r 14))) (at_ r 15).

Definition sha2_round (st : list N) (kw : N * N) : list N :=
  let '(kt, wt) := kw in
  let a := at_ st 0 in let b := at_ st 1 in let c := at_ st 2 in
  let d := at_ st 3 in let e := at_ st 4 in let f := at_ st 5 in
  let g := at_ st 6 in let h := at_ st 7 in
  let t1 := add w (add w (add w (add w h (S1 e)) (Ch w e f g)) kt) wt in
  let t2 := add w (S0 a) (Maj a b c) in
  [add w t1 t2; a; b; c; add w d t1; e; f; g].

Definition sha2_compress (wordbytes : nat) (h block : list N) : list N :=
  let ws := schedule wordbytes (List.length K) sha2_step block in
  let st := fold_left sha2_round (combine K ws) h in
  map (fun p => add w (fst p) (snd p)) (combine h st).
End Sha2.

Definition xor3 (x y z : N) : N := N.lxor (N.lxor x y) z.

(** The constants are the leading fractional bits of roots of the first
    primes: cube roots for the round constants, square roots for the
    initial state. *)
Definition is_prime (n : N) : bool :=
  (1 <? n)
  && forallb (fun d => negb (n mod N.of_nat d =? 0))
             (seq 2 (N.to_nat n - 2)).

Definition first_primes (count : nat) : list N :=
  firstn count (filter is_prime (map N.of_nat (seq 2 420))).

(** The largest [r] below [2 ^ bits] with [r ^ k <= n]. *)
Fixpoint root_below (k n : N) (bits : nat) (r : N) : N :=
  match bits with
  | O => r
  | S bits' =>
      let r' := N.lor r (N.shiftl 1 (N.of_nat bits')) in
      if r' ^ k <=? n then root_below k n bits' r'
      else root_below k n bits' r
  end.

Definition root_fraction (k w : N) (p : N) : N :=
  let n := N.shiftl p (k * w) in
  wrap w (root_below k n (N.to_nat (N.size n)) 0).

Definition K256 : list N :=
  Eval vm_compute in map (root_fraction 3 32) (first_primes 64).
Definition H256 : list N :=
  Eval vm_compute in map (root_fraction 2 32) (first_primes 8).
Definition K512 : list N :=
  Eval vm_compute in map (root_fraction 3 64) (first_primes 80).
Definition H512 : list N :=
  Eval vm_compute in map (root_fraction 2 64) (first_primes 8).

Definition sha256 : list N -> list N :=
  digest_hash 64 8 4
    (sha2_compress 32
       (fun x => xor3 (rotr 32 2 x) (rotr 32 13 x) (rotr 32 22 x))
       (fun x => xor3 (rotr 32 6 x) (rotr 32 11 x) (rotr 32 25 x))
       (fun x => xor3 (rotr 32 7 x) (rotr 32 18 x) (shr 3 x))
       (fun x => xor3 (rotr 32 17 x) (rotr 32 19 x) (shr 10 x))
       K256 4)
    H256.

Definition sha512 : list N -> list N :=
  digest_hash 128 16 8
    (sha2_compress 64
       (fun x => xor3 (rotr 64 28 x) (rotr 64 34 x) (rotr 64 39 x))
       (fun x => xor3 (rotr 64 14 x) (rotr 64 18 x) (rotr 64 41 x))
       (fun x => xor3 (rotr 64 1 x) (rotr 64 8 x) (shr 7 x))
       (fun x => xor3 (rotr 64 19 x) (rotr 64 61 x) (shr 6 x))
       K512 8)
    H512.

(** [hexdigest]: two lower-case hexadecimal digits per byte. *)
Definition hex_digit (n : N) : ascii :=
  if n <? 10 then ascii_of_N (48 + n) else ascii_of_N (87 + n).

Fixpoint hexdigest (bs : list N) : string :=
  match bs with
  | [] => EmptyString
  | b :: bs' =>
      String (hex_digit (N.shiftr b 4))
             (String (hex_digit (N.land b 15)) (hexdigest bs'))
  end.

Definition bytes_of (s : string) : list N :=
  map N_of_ascii (list_ascii_of_string s).

End hashlib.

(** ** The Python values and built-ins the class relies on *)

(** Exceptions that the modelled code can raise, and results of calls that
    may raise. *)
Inductive exn : Type :=
| AssertionError
| AttributeError
| LookupError
| UnicodeDecodeError.

Inductive result (A : Type) : Type :=
| Ok (a : A)
| Raise (e : exn).

Arguments Ok {A} a.
Arguments Raise {A} e.

Definition bind {A B} (r : result A) (k : A -> result B) : result B :=
  match r with
  | Ok a => k a
  | Raise e => Raise e
  end.

Notation "x <- r ;; k" := (bind r (fun x => k))
  (at level 61, r at next level, right associativity).

(** The values a parameter mapping holds: [None], a [bool], an [int] or a
    [str]. [bool] stands for the scalars that are equal to a value of
    another type and print unlike it ([True == 1], as [1.0 == 1]); floats
    and the other scalar types are not modelled. *)
Inductive value : Type :=
| VNone
| VBool (b : bool)
| VInt (z : Z)
| VStr (s : string).

(** The number that a numeric value compares as. *)
Definition number (v : value) : option Z :=
  match v with
  | VBool b => Some (Z.b2z b)
  | VInt z => Some z
  | _ => None
  end.

(** [str.upper()] of a byte string: the letters [a]..[z] only. *)
Definition upper_ascii (c : ascii) : ascii :=
  let n := N_of_ascii c in
  if (97 <=? n)%N && (n <=? 122)%N then ascii_of_N (n - 32) else c.

Fixpoint upper (s : string) : string :=
  match s with
  | EmptyString => EmptyString
  | String c s' => String (upper_ascii c) (upper s')
  end.

(** [s < t] on byte strings: bytewise, a proper prefix comes first. *)
Fixpoint str_ltb (s t : string) : bool :=
  match s, t with
  | _, EmptyString => false
  | EmptyString, String _ _ => true
  | String a s', String b t' =>
      if (N_of_ascii a <? N_of_ascii b)%N then true
      else if (N_of_ascii a =? N_of_ascii b)%N then str_ltb s' t'
      else false
  end.

(** [v == w] and [v < w] on values. Numbers compare by what they are worth,
    a [bool] as [0] or [1]; a number, a string and [None] are never equal
    to one another; [None] is below every other value and numbers are
    below strings. *)
Definition value_eqb (v w : value) : bool :=
  match v, w with
  | VNone, VNone => true
  | VStr s, VStr t => (s =? t)%string
  | _, _ =>
      match number v, number w with
      | Some a, Some b => (a =? b)%Z
      | _, _ => false
      end
  end.

Definition value_ltb (v w : value) : bool :=
  match v, w with
  | VNone, VNone => false
  | VNone, _ => true
  | _, VNone => false
  | VStr s, VStr t => str_ltb s t
  | _, _ =>
      match number v, number w with
      | Some a, Some b => (a <? b)%Z
      | Some _, None => true
      | None, _ => false
      end
  end.


Definition is_None (v : value) : bool :=
  match v with VNone => true | _ => false end.

(** [str(v)], also what [%s] formats. *)
Definition str (v : value) : string :=
  match v with
  | VNone => "None"
  | VBool b => if b then "True" else "False"
  | VInt z => NilZero.string_of_int (Z.to_int z)
  | VStr s => s
  end.

(** Truth value of a string: non-empty. *)
Definition truthy (s : string) : bool :=
  match s with EmptyString => false | _ => true end.

(** [x in l] for a list of strings. *)
Definition py_in (x : string) (l : list string) : bool :=
  existsb (String.eqb x) l.

(** [p < q] on the pairs of the canonical sequence, as tuples compare:
    the first component that differs decides. *)
Definition pair_ltb (p q : string * value) : bool :=
  if negb (fst p =? fst q)%string then str_ltb (fst p) (fst q)
  else if negb (value_eqb (snd p) (snd q)) then value_ltb (snd p) (snd q)
  else false.

(** [list.sort]: a stable sort that only asks [<]. *)
Section Sort.
Context {A : Type}.
Variable ltb : A -> A -> bool.

Fixpoint insert (x : A) (l : list A) : list A :=
  match l with
  | [] => [x]
  | y :: l' => if ltb y x then y :: insert x l' else x :: y :: l'
  end.

Definition list_sort (l : list A) : list A :=
  fold_right insert [] l.

(** Ascending: no element is above the one that follows it. *)
Definition ascending : list A -> Prop :=
  Sorted (fun x y => ltb y x = false).
End Sort.

(** A boolean [<] that is a strict order. *)
Class Strict {A : Type} (ltb : A -> A -> bool) : Prop := {
  strict_irrefl : forall x, ltb x x = false;
  strict_trans :
    forall x y z, ltb x y = true -> ltb y z = true -> ltb x z = true
}.

(** A boolean [<] that is a strict total order: under it a list has one
    sorted arrangement only. *)
Class StrictTotal {A : Type} (ltb : A -> A -> bool) : Prop := {
  ltb_irrefl : forall x, ltb x x = false;
  ltb_trans : forall x y z, ltb x y = true -> ltb y z = true -> ltb x z = true;
  ltb_connex : forall x y, ltb x y = false -> ltb y x = false -> x = y
}.

(** [sep.join(l)]. *)
Fixpoint join (sep : string) (l : list string) : string :=
  match l with
  | [] => ""
  | [x] => x
  | x :: l' => (x ++ sep ++ join sep l')%string
  end.

(** What [encoding] can hold: one of three codecs that agree on ASCII text,
    or a name that the codec registry does not know. *)
Inductive codec : Type :=
| utf8
| latin1
| ascii_codec
| unknown_codec (name : string).

Fixpoint is_ascii (s : string) : bool :=
  match s with
  | EmptyString => true
  | String c s' => (N_of_ascii c <? 128)%N && is_ascii s'
  end.

(** [s.encode(c)] on a byte string: the codec is looked up, which raises
    for an unknown name; the string is then decoded with the default ASCII
    codec, which raises on a byte above 127, and the text is encoded, which
    for the three codecs gives the same bytes back. *)
Definition encode (s : string) (c : codec) : result string :=
  match c with
  | unknown_codec _ => Raise LookupError
  | _ => if is_ascii s then Ok s else Raise UnicodeDecodeError
  end.

(** [getattr(hashlib, name)] for the names that [__init__] lets through. *)
Definition hashlib_getattr (name : string) : result (list N -> list N) :=
  if (name =? "sha1")%string then Ok hashlib.sha1
  else if (name =? "sha256")%string then Ok hashlib.sha256
  else if (name =? "sha512")%string then Ok hashlib.sha512
  else Raise AttributeError.

(** ** The allow-lists of [_filter_data] *)

Definition SHA_IN_FILTER_WORDS : list string :=
  [ "ACCEPTANCE"; "ACCEPTURL"; "ADDMATCH"; "ADDRMATCH"; "AIAGIATA";
    "AIAIRNAME"; "AIAIRTAX"; "AIBOOKIND*XX*"; "AICARRIER*XX*"; "AICHDET";
    "AICLASS*XX*"; "AICONJTI"; "AIDEPTCODE"; "AIDESTCITY*XX*";
    "AIDESTCITYL*XX*"; "AIEXTRAPASNAME*XX*"; "AIEYCD"; "AIFLDATE*XX*";
    "AIFLNUM*XX*"; "AIGLNUM"; "AIINVOICE"; "AIIRST"; "AIORCITY*XX*";
    "AIORCITYL*XX*"; "AIPASNAME"; "AIPROJNUM"; "AISTOPOV*XX*"; "AITIDATE";
    "AITINUM"; "AITINUML*XX*"; "AITYPCH"; "AIVATAMNT"; "AIVATAPPL"; "ALIAS";
    "ALIASOPERATION"; "ALIASUSAGE"; "ALLOWCORRECTION"; "AMOUNT";
    "AMOUNT*XX*"; "AMOUNTHTVA"; "AMOUNTTVA"; "BACKURL"; "BATCHID"; "BGCOLOR";
    "BLVERNUM"; "BRAND"; "BRANDVISUAL"; "BUTTONBGCOLOR"; "BUTTONTXTCOLOR";
    "CANCELURL"; "CARDNO"; "CATALOGURL"; "CAVV_3D"; "CAVVALGORITHM_3D";
    "CERTID"; "CHECK_AAV"; "CIVILITY"; "CN"; "COM"; "COMPLUS"; "COSTCENTER";
    "COSTCODE"; "CREDITCODE"; "CUID"; "CURRENCY"; "CVC"; "CVCFLAG"; "DATA";
    "DATATYPE"; "DATEIN"; "DATEOUT"; "DECLINEURL"; "DEVICE"; "DISCOUNTRATE";
    "DISPLAYMODE"; "ECI"; "ECI_3D"; "ECOM_BILLTO_POSTAL_CITY";
    "ECOM_BILLTO_POSTAL_COUNTRYCODE"; "ECOM_BILLTO_POSTAL_NAME_FIRST";
    "ECOM_BILLTO_POSTAL_NAME_LAST"; "ECOM_BILLTO_POSTAL_POSTALCODE";
    "ECOM_BILLTO_POSTAL_STREET_LINE1"; "ECOM_BILLTO_POSTAL_STREET_LINE2";
    "ECOM_BILLTO_POSTAL_STREET_NUMBER"; "ECOM_CONSUMERID";
    "ECOM_CONSUMER_GENDER"; "ECOM_CONSUMEROGID"; "ECOM_CONSUMERORDERID";
    "ECOM_CONSUMERUSERALIAS"; "ECOM_CONSUMERUSERPWD"; "ECOM_CONSUMERUSERID";
    "ECOM_PAYMENT_CARD_EXPDATE_MONTH"; "ECOM_PAYMENT_CARD_EXPDATE_YEAR";
    "ECOM_PAYMENT_CARD_NAME"; "ECOM_PAYMENT_CARD_VERIFICATION";
    "ECOM_SHIPTO_COMPANY"; "ECOM_SHIPTO_DOB"; "ECOM_SHIPTO_ONLINE_EMAIL";
    "ECOM_SHIPTO_POSTAL_CITY"; "ECOM_SHIPTO_POSTAL_COUNTRYCODE";
    "ECOM_SHIPTO_POSTAL_NAME_FIRST"; "ECOM_SHIPTO_POSTAL_NAME_LAST";
    "ECOM_SHIPTO_POSTAL_NAME_PREFIX"; "ECOM_SHIPTO_POSTAL_POSTALCODE";
    "ECOM_SHIPTO_POSTAL_STREET_LINE1"; "ECOM_SHIPTO_POSTAL_STREET_LINE2";
    "ECOM_SHIPTO_POSTAL_STREET_NUMBER"; "ECOM_SHIPTO_TELECOM_FAX_NUMBER";
    "ECOM_SHIPTO_TELECOM_PHONE_NUMBER"; "ECOM_SHIPTO_TVA"; "ED"; "EMAIL";
    "EXCEPTIONURL"; "EXCLPMLIST"; "EXECUTIONDATE*XX*"; "FACEXCL*XX*";
    "FACTOTAL*XX*"; "FIRSTCALL"; "FLAG3D"; "FONTTYPE"; "FORCECODE1";
    "FORCECODE2"; "FORCECODEHASH"; "FORCEPROCESS"; "FORCETP"; "GENERIC_BL";
    "GIROPAY_ACCOUNT_NUMBER"; "GIROPAY_BLZ"; "GIROPAY_OWNER_NAME";
    "GLOBORDERID"; "GUID"; "HDFONTTYPE"; "HDTBLBGCOLOR"; "HDTBLTXTCOLOR";
    "HEIGHTFRAME"; "HOMEURL"; "HTTP_ACCEPT"; "HTTP_USER_AGENT";
    "INCLUDE_BIN"; "INCLUDE_COUNTRIES"; "INVDATE"; "INVDISCOUNT"; "INVLEVEL";
    "INVORDERID"; "ISSUERID"; "IST_MOBILE"; "ITEM_COUNT";
    "ITEMATTRIBUTES*XX*"; "ITEMCATEGORY*XX*"; "ITEMCOMMENTS*XX*";
    "ITEMDESC*XX*"; "ITEMDISCOUNT*XX*"; "ITEMID*XX*"; "ITEMNAME*XX*";
    "ITEMPRICE*XX*"; "ITEMQUANT*XX*"; "ITEMQUANTORIG*XX*";
    "ITEMUNITOFMEASURE*XX*"; "ITEMVAT*XX*"; "ITEMVATCODE*XX*";
    "ITEMWEIGHT*XX*"; "LANGUAGE"; "LEVEL1AUTHCPC"; "LIDEXCL*XX*";
    "LIMITCLIENTSCRIPTUSAGE"; "LINE_REF"; "LINE_REF1"; "LINE_REF2";
    "LINE_REF3"; "LINE_REF4"; "LINE_REF5"; "LINE_REF6"; "LIST_BIN";
    "LIST_COUNTRIES"; "LOGO"; "MAXITEMQUANT*XX*"; "MERCHANTID"; "MODE";
    "MTIME"; "MVER"; "NETAMOUNT"; "OPERATION"; "ORDERID"; "ORDERSHIPCOST";
    "ORDERSHIPTAX"; "ORDERSHIPTAXCODE"; "ORIG"; "OR_INVORDERID";
    "OR_ORDERID"; "OWNERADDRESS"; "OWNERADDRESS2"; "OWNERCTY"; "OWNERTELNO";
    "OWNERTOWN"; "OWNERZIP"; "PAIDAMOUNT"; "PARAMPLUS"; "PARAMVAR"; "PAYID";
    "PAYMETHOD"; "PM"; "PMLIST"; "PMLISTPMLISTTYPE"; "PMLISTTYPE";
    "PMLISTTYPEPMLIST"; "PMTYPE"; "POPUP"; "POST"; "PSPID"; "PSWD"; "REF";
    "REFER"; "REFID"; "REFKIND"; "REF_CUSTOMERID"; "REF_CUSTOMERREF";
    "REGISTRED"; "REMOTE_ADDR"; "REQGENFIELDS"; "RTIMEOUT";
    "RTIMEOUTREQUESTEDTIMEOUT"; "SCORINGCLIENT"; "SETT_BATCH"; "SID";
    "STATUS_3D"; "SUBSCRIPTION_ID"; "SUB_AM"; "SUB_AMOUNT"; "SUB_COM";
    "SUB_COMMENT"; "SUB_CUR"; "SUB_ENDDATE"; "SUB_ORDERID";
    "SUB_PERIOD_MOMENT"; "SUB_PERIOD_MOMENT_M"; "SUB_PERIOD_MOMENT_WW";
    "SUB_PERIOD_NUMBER"; "SUB_PERIOD_NUMBER_D"; "SUB_PERIOD_NUMBER_M";
    "SUB_PERIOD_NUMBER_WW"; "SUB_PERIOD_UNIT"; "SUB_STARTDATE"; "SUB_STATUS";
    "TAAL"; "TAXINCLUDED*XX*"; "TBLBGCOLOR"; "TBLTXTCOLOR"; "TID"; "TITLE";
    "TOTALAMOUNT"; "TP"; "TRACK2"; "TXTBADDR2"; "TXTCOLOR"; "TXTOKEN";
    "TXTOKENTXTOKENPAYPAL"; "TYPE_COUNTRY"; "UCAF_AUTHENTICATION_DATA";
    "UCAF_PAYMENT_CARD_CVC2"; "UCAF_PAYMENT_CARD_EXPDATE_MONTH";
    "UCAF_PAYMENT_CARD_EXPDATE_YEAR"; "UCAF_PAYMENT_CARD_NUMBER"; "USERID";
    "USERTYPE"; "VERSION"; "WBTU_MSISDN"; "WBTU_ORDERID"; "WEIGHTUNIT";
    "WIN3DS"; "WITHROOT" ].

Definition SHA_OUT_FILTER_WORDS : list string :=
  [ "AAVADDRESS"; "AAVCHECK"; "AAVZIP"; "ACCEPTANCE"; "ALIAS"; "AMOUNT";
    "BIN"; "BRAND"; "CARDNO"; "CCCTY"; "CN"; "COMPLUS"; "CREATION_STATUS";
    "CURRENCY"; "CVCCHECK"; "DCC_COMMPERCENTAGE"; "DCC_CONVAMOUNT";
    "DCC_CONVCCY"; "DCC_EXCHRATE"; "DCC_EXCHRATESOURCE"; "DCC_EXCHRATETS";
    "DCC_INDICATOR"; "DCC_MARGINPERCENTAGE"; "DCC_VALIDHOURS";
    "DIGESTCARDNO"; "ECI"; "ED"; "ENCCARDNO"; "IP"; "IPCTY"; "NBREMAILUSAGE";
    "NBRIPUSAGE"; "NBRIPUSAGE_ALLTX"; "NBRUSAGE"; "NCERROR"; "ORDERID";
    "PAYID"; "PM"; "SCO_CATEGORY"; "SCORING"; "STATUS"; "SUBBRAND";
    "SUBSCRIPTION_ID"; "TRXDATE"; "VC" ].

(** ** The class [OgoneSignature] *)

(** A parameter mapping is a [dict]; it is kept as the list of its items in
    iteration order, which is what [_sort_data] reads. *)
Definition mapping : Type := list (string * value).

Record OgoneSignature : Type := mkOgoneSignature {
  data : mapping;
  hash_method : string;
  secret : value;
  encoding : codec;
  out : bool
}.

(** [d.copy()] and [d.items()]. A mapping being its list of items, [items]
    changes nothing; a list of pairs that is not a [dict], such as the
    result of [_sort_data], has no [items] in the code. *)
Definition copy (d : mapping) : mapping := d.
Definition items (d : mapping) : list (string * value) := d.

Definition __init__ (data : mapping) (hash_method : string) (secret : value)
           (encoding : codec) (out : bool) : result OgoneSignature :=
  if negb (py_in hash_method ["sha1"; "sha256"; "sha512"])
  then Raise AssertionError
  else if negb (truthy (str secret)) then Raise AssertionError
  else Ok (mkOgoneSignature (copy data) hash_method secret encoding out).

(** [_filter_data] and [_sort_data] are first written over any two
    allow-lists, so that what they do can be stated whatever the tables
    hold; the class uses them with the two tables above. *)
Section Tables.
Variables IN_WORDS OUT_WORDS : list string.

Definition _filter_data_with (self : OgoneSignature) (k : string)
           (v : value) : bool :=
  let valid := true in
  let valid :=
    if value_eqb v (VStr "") || is_None v then false else valid in
  let valid :=
    if negb (out self) && negb (py_in (upper k) IN_WORDS)
    then false else valid in
  let valid :=
    if out self && negb (py_in (upper k) OUT_WORDS)
    then false else valid in
  let valid := if (k =? "SHASIGN")%string then false else valid in
  valid.

Definition _sort_data_with (self : OgoneSignature) (data : mapping)
  : list (string * value) :=
  let sorted_data :=
    map (fun kv => (upper (fst kv), snd kv))
        (filter (fun kv => _filter_data_with self (upper (fst kv)) (snd kv))
                (items data)) in
  list_sort pair_ltb sorted_data.

(** The allow-list that [_filter_data] consults for the direction of
    [self]. *)
Definition applicable (self : OgoneSignature) : list string :=
  if out self then OUT_WORDS else IN_WORDS.

(** The pairs of the comprehension in [_sort_data], before the sort. *)
Definition kept (self : OgoneSignature) (d : mapping)
  : list (string * value) :=
  map (fun kv => (upper (fst kv), snd kv))
      (filter (fun kv => _filter_data_with self (upper (fst kv)) (snd kv))
              d).
End Tables.

Definition _filter_data : OgoneSignature -> string -> value -> bool :=
  _filter_data_with SHA_IN_FILTER_WORDS SHA_OUT_FILTER_WORDS.

Definition _sort_data : OgoneSignature -> mapping -> list (string * value) :=
  _sort_data_with SHA_IN_FILTER_WORDS SHA_OUT_FILTER_WORDS.

Definition _merge_data (self : OgoneSignature)
           (data : list (string * value)) : result string :=
  let pairs := map (fun kv => (fst kv ++ "=" ++ str (snd kv))%string) data in
  match secret self with
  | VStr sec =>
      let pre_sign_string := (join sec pairs ++ sec)%string in
      encode pre_sign_string (encoding self)
  | _ => Raise AttributeError
  end.

Definition _sign_string (self : OgoneSignature) (pre_sign_string : string)
  : result string :=
  hashmethod <- hashlib_getattr (hash_method self) ;;
  let signed :=
    upper (hashlib.hexdigest (hashmethod (hashlib.bytes_of pre_sign_string))) in
  Ok signed.

(** [signature] over any two tables, and the method of the class. The calls
    to [log.debug] leave the result alone and are not modelled. *)
Definition signature_with (IN_WORDS OUT_WORDS : list string)
           (self : OgoneSignature) : result string :=
  let sorted_data := _sort_data_with IN_WORDS OUT_WORDS self (data self) in
  pre_sign_string <- _merge_data self sorted_data ;;
  signed <- _sign_string self pre_sign_string ;;
  Ok signed.

Definition signature : OgoneSignature -> result string :=
  signature_with SHA_IN_FILTER_WORDS SHA_OUT_FILTER_WORDS.

(** The allow-list of the class for the direction of [self]. *)
Definition applicable_words : OgoneSignature -> list string :=
  applicable SHA_IN_FILTER_WORDS SHA_OUT_FILTER_WORDS.

(** [OgoneSignature(data, hash_method, secret, encoding, out).signature()] *)
Definition ogone_signature (data : mapping) (hash_method : string)
           (secret : value) (encoding : codec) (out : bool) : result string :=
  self <- __init__ data hash_method secret encoding out ;;
  signature self.

(** The three worked examples of the class docstring. *)
Definition data_doc : mapping := [ ("d", VStr "a"); ("a", VStr "b") ].

Definition data_sha_out : mapping :=
  [ ("acceptance", VInt 1234); ("amount", VInt 15); ("brand", VStr "VISA");
    ("cardno", VStr "xxxxxxxxxxxx1111"); ("currency", VStr "EUR");
    ("NCERROR", VInt 0); ("orderId", VInt 12); ("payid", VInt 32100123);
    ("pm", VStr "CreditCard"); ("status", VInt 9) ].

Definition data_sha_in : mapping :=
  [ ("amount", VInt 1500); ("currency", VStr "EUR");
    ("operation", VStr "RES"); ("orderID", VInt 1234);
    ("PSPID", VStr "MyPSPID") ].

Definition ogone_secret : value := VStr "Mysecretsig1875!?".

(** The instance of the first docstring example:
    [OgoneSignature(dict(d='a', a='b'), hash_method='sha512', secret='c')]. *)
Definition ogone_doc : OgoneSignature :=
  mkOgoneSignature data_doc "sha512" (VStr "c") utf8 false.

Definition digest_A_b_c_D_a_c : string :=
  "B499539D7E0B2B1FB5CCFE9FFDDBAD1EDF345757C094443ED795662F879FB250EEEB22CBB2D2F3C129E2CAE735044CDB7B08397502204B0683EA370F6D76FB6A".

Definition digest_c : string :=
  "ACC28DB2BEB7B42BAA1CB0243D401CCB4E3FCE44D7B02879A52799AADFF541522D8822598B2FA664F9D5156C00C924805D75C3868BD56C2ACB81D37E98E35ADC".

(** A mapping with two keys that differ in case only. *)
Definition data_two_cases : mapping :=
  [ ("Amount", VStr "1"); ("AMOUNT", VStr "2") ].

Definition ogone_two_cases : OgoneSignature :=
  mkOgoneSignature data_two_cases "sha1" (VStr "s") utf8 false.

(** [__unicode__] is [signature]. *)
Definition __unicode__ (self : OgoneSignature) : result string :=
  signature self.

(** ** Vocabulary of the statements below *)

(** A pair as the comprehension of [_sort_data] writes it. *)
Definition upper_key (kv : string * value) : string * value :=
  (upper (fst kv), snd kv).

(** Strings written one after the other. *)
Definition flatten (l : list string) : string :=
  fold_right String.append "" l.

(** The digits [0]..[9] and the capitals [A]..[F]. *)
Definition is_upper_hex_digit (c : ascii) : bool :=
  let n := N_of_ascii c in
  ((48 <=? n)%N && (n <=? 57)%N) || ((65 <=? n)%N && (n <=? 70)%N).

Fixpoint is_upper_hex (s : string) : bool :=
  match s with
  | EmptyString => true
  | String c s' => is_upper_hex_digit c && is_upper_hex s'
  end.

(** Number of hexadecimal digits of the digest of each hash method. *)
Definition hexdigest_size (name : string) : nat :=
  if (name =? "sha1")%string then 40
  else if (name =? "sha256")%string then 64
  else 128.

(** Entries whose key and [str] value hold bytes up to 127 only. *)
Definition ascii_value (v : value) : bool :=
  match v with
  | VStr s => is_ascii s
  | _ => true
  end.

Definition ascii_entry (kv : string * value) : bool :=
  is_ascii (fst kv) && ascii_value (snd kv).




(** An entry with its value replaced by the [str] of it. *)
Definition stringified (kv : string * value) : string * value :=
  (fst kv, VStr (str (snd kv))).

(** * Properties *)

(** ** Orders that decide a sort *)

Lemma strict_asym {A} (ltb : A -> A -> bool) `{Strict A ltb} :
  forall x y, ltb x y = true -> ltb y x = false.
Proof.
  intros x y Hxy. destruct (ltb y x) eqn:Hyx; trivial.
  rewrite <- (strict_irrefl x). symmetry. now apply strict_trans with y.
Qed.

Lemma N_of_ascii_inj (a b : ascii) : N_of_ascii a = N_of_ascii b -> a = b.
Proof.
  intros E. rewrite <- (ascii_N_embedding a), <- (ascii_N_embedding b).
  now rewrite E.
Qed.

Lemma str_ltb_irrefl (s : string) : str_ltb s s = false.
Proof.
  induction s as [|c s IH]; simpl; trivial.
  now rewrite N.ltb_irrefl, N.eqb_refl.
Qed.

Lemma str_ltb_trans (s t u : string) :
  str_ltb s t = true -> str_ltb t u = true -> str_ltb s u = true.
Proof.
  revert t u. induction s as [|a s IH]; intros [|b t] [|c u]; simpl;
    try congruence.
  destruct (N.ltb_spec (N_of_ascii a) (N_of_ascii b)) as [Hab|Hab];
    destruct (N.ltb_spec (N_of_ascii b) (N_of_ascii c)) as [Hbc|Hbc];
    destruct (N.eqb_spec (N_of_ascii a) (N_of_ascii b)) as [Eab|Eab];
    destruct (N.eqb_spec (N_of_ascii b) (N_of_ascii c)) as [Ebc|Ebc];
    destruct (N.ltb_spec (N_of_ascii a) (N_of_ascii c)) as [Hac|Hac];
    destruct (N.eqb_spec (N_of_ascii a) (N_of_ascii c)) as [Eac|Eac];
    intros H1 H2; try congruence; try lia.
  now apply IH with t.
Qed.

Lemma str_ltb_connex (s t : string) :
  str_ltb s t = false -> str_ltb t s = false -> s = t.
Proof.
  revert t. induction s as [|a s IH]; intros [|b t]; simpl; try congruence.
  destruct (N.ltb_spec (N_of_ascii a) (N_of_ascii b)) as [Hab|Hab];
    destruct (N.ltb_spec (N_of_ascii b) (N_of_ascii a)) as [Hba|Hba];
    destruct (N.eqb_spec (N_of_ascii a) (N_of_ascii b)) as [Eab|Eab];
    destruct (N.eqb_spec (N_of_ascii b) (N_of_ascii a)) as [Eba|Eba];
    intros H1 H2; try congruence; try lia.
  f_equal; [now apply N_of_ascii_inj | now apply IH].
Qed.

#[export] Instance str_ltb_total : StrictTotal str_ltb :=
  {| ltb_irrefl := str_ltb_irrefl;
     ltb_trans := str_ltb_trans;
     ltb_connex := str_ltb_connex |}.

#[export] Instance str_ltb_strict : Strict str_ltb :=
  {| strict_irrefl := str_ltb_irrefl;
     strict_trans := str_ltb_trans |}.

Lemma value_eqb_refl (v : value) : value_eqb v v = true.
Proof.
  destruct v as [|b|z|s]; cbn [value_eqb number]; trivial.
  - apply Z.eqb_refl.
  - apply Z.eqb_refl.
  - apply String.eqb_refl.
Qed.



Lemma value_ltb_not_eqb (v w : value) :
  value_ltb v w = true -> value_eqb v w = false.
Proof.
  destruct v as [|a|x|s], w as [|b|y|t]; cbn [value_ltb value_eqb number];
    trivial; try discriminate;
    try (rewrite Z.ltb_lt, Z.eqb_neq; lia).
  intros H. destruct (String.eqb_spec s t) as [->|_]; trivial.
  now rewrite str_ltb_irrefl in H.
Qed.


#[export] Instance value_ltb_strict : Strict value_ltb.
Proof.
  split.
  - intros [|b|z|s]; cbn [value_ltb number]; trivial;
      try apply Z.ltb_irrefl.
    apply str_ltb_irrefl.
  - intros [|a|x|s] [|b|y|t] [|c|z|u]; cbn [value_ltb number]; trivial;
      try discriminate; try (rewrite !Z.ltb_lt; lia).
    apply str_ltb_trans.
Qed.

#[export] Instance pair_ltb_strict : Strict pair_ltb.
Proof.
  split.
  - intros [k v]. unfold pair_ltb. simpl.
    now rewrite String.eqb_refl, value_eqb_refl.
  - intros [k1 v1] [k2 v2] [k3 v3]. unfold pair_ltb. simpl.
    destruct (String.eqb_spec k1 k2) as [->|N12];
      destruct (String.eqb_spec k2 k3) as [->|N23]; simpl.
    + destruct (value_eqb v1 v2) eqn:E12; simpl; try discriminate.
      destruct (value_eqb v2 v3) eqn:E23; simpl; try discriminate.
      intros H1 H2. pose proof (strict_trans _ _ _ H1 H2) as H13.
      now rewrite (value_ltb_not_eqb _ _ H13).
    + destruct (value_eqb v1 v2); simpl; try discriminate. now intros _ H.
    + destruct (String.eqb_spec k1 k3) as [->|N13]; simpl.
      * congruence.
      * destruct (value_eqb v2 v3); simpl; try discriminate. now intros H _.
    + intros H1 H2. pose proof (strict_trans _ _ _ H1 H2) as H13.
      destruct (String.eqb_spec k1 k3) as [->|N13]; simpl; trivial.
      now rewrite (strict_asym str_ltb _ _ H1) in H2.
Qed.




(** ** The sort *)

Section SortFacts.
Context {A : Type} (ltb : A -> A -> bool).

Lemma insert_perm (x : A) (l : list A) :
  Permutation (insert ltb x l) (x :: l).
Proof.
  induction l as [|y l IH]; simpl; trivial.
  destruct (ltb y x); trivial.
  rewrite IH. apply perm_swap.
Qed.

Lemma list_sort_perm (l : list A) : Permutation (list_sort ltb l) l.
Proof.
  induction l as [|x l IH]; simpl; trivial.
  rewrite insert_perm. now constructor.
Qed.

Context `{SO : Strict A ltb}.

Lemma insert_ascending (x : A) (l : list A) :
  ascending ltb l -> ascending ltb (insert ltb x l).
Proof.
  unfold ascending. induction l as [|y l IH]; intros Hl; simpl.
  - repeat constructor.
  - destruct (ltb y x) eqn:Hyx.
    + inversion Hl as [|? ? Hs Hd]; subst. constructor; [now apply IH|].
      destruct l as [|z l]; simpl.
      * constructor. now apply (strict_asym ltb).
      * destruct (ltb z x); constructor.
        -- now inversion Hd.
        -- now apply (strict_asym ltb).
    + constructor; trivial. now constructor.
Qed.

Lemma list_sort_ascending (l : list A) : ascending ltb (list_sort ltb l).
Proof.
  induction l as [|x l IH]; simpl.
  - constructor.
  - now apply insert_ascending.
Qed.


End SortFacts.

(** ** The filter and the canonical sequence *)

Lemma upper_ascii_idem (c : ascii) : upper_ascii (upper_ascii c) = upper_ascii c.
Proof. destruct c as [[] [] [] [] [] [] [] []]; reflexivity. Qed.

Lemma upper_idem (s : string) : upper (upper s) = upper s.
Proof.
  induction s as [|c s IH]; simpl; trivial.
  now rewrite upper_ascii_idem, IH.
Qed.

Lemma filter_absorb {A} (f g : A -> bool) (l : list A) :
  (forall x, f x = true -> g x = true) ->
  filter f (filter g l) = filter f l.
Proof.
  intros Hfg. induction l as [|x l IH]; simpl; trivial.
  destruct (g x) eqn:Hg; simpl.
  - now rewrite IH.
  - destruct (f x) eqn:Hf; trivial.
    apply Hfg in Hf. congruence.
Qed.


Section TablesFacts.
Variables IN_WORDS OUT_WORDS : list string.

Lemma filter_data_true (self : OgoneSignature) (k : string) (v : value) :
  _filter_data_with IN_WORDS OUT_WORDS self k v = true <->
  value_eqb v (VStr "") = false /\ is_None v = false /\
  py_in (upper k) (applicable IN_WORDS OUT_WORDS self) = true /\ (k =? "SHASIGN")%string = false.
Proof.
  unfold _filter_data_with, applicable.
  destruct (value_eqb v (VStr "")), (is_None v), (out self),
    (py_in (upper k) IN_WORDS), (py_in (upper k) OUT_WORDS),
    (k =? "SHASIGN")%string; simpl; intuition congruence.
Qed.

Lemma filter_data_out_only (s1 s2 : OgoneSignature) (k : string) (v : value) :
  out s1 = out s2 ->
  _filter_data_with IN_WORDS OUT_WORDS s1 k v =
  _filter_data_with IN_WORDS OUT_WORDS s2 k v.
Proof. unfold _filter_data_with. now intros ->. Qed.

Lemma sort_data_kept (self : OgoneSignature) (d : mapping) :
  Permutation (_sort_data_with IN_WORDS OUT_WORDS self d)
              (kept IN_WORDS OUT_WORDS self d).
Proof. apply list_sort_perm. Qed.

Lemma sort_data_In (self : OgoneSignature) (d : mapping) (K : string)
      (v : value) :
  In (K, v) (_sort_data_with IN_WORDS OUT_WORDS self d) <->
  exists k, In (k, v) d /\ K = upper k /\
            _filter_data_with IN_WORDS OUT_WORDS self (upper k) v = true.
Proof.
  split.
  - intros H. apply (Permutation_in _ (sort_data_kept self d)) in H.
    apply in_map_iff in H. destruct H as [[k v'] [E H]]. simpl in E.
    apply filter_In in H. destruct H as [Hin Hf]. simpl in Hf.
    inversion E; subst. now exists k.
  - intros (k & Hin & -> & Hf).
    apply (Permutation_in _ (Permutation_sym (sort_data_kept self d))).
    apply in_map_iff.
    exists (k, v). split; trivial. apply filter_In. now split.
Qed.

(** Dropping beforehand entries that the filter refuses anyway leaves the
    canonical sequence as it was. *)
Lemma sort_data_prefilter (self : OgoneSignature) (d : mapping)
      (g : string * value -> bool) :
  (forall kv, _filter_data_with IN_WORDS OUT_WORDS self
                (upper (fst kv)) (snd kv) = true -> g kv = true) ->
  _sort_data_with IN_WORDS OUT_WORDS self (filter g d) =
  _sort_data_with IN_WORDS OUT_WORDS self d.
Proof.
  intros Hg. unfold _sort_data_with, items. now rewrite filter_absorb.
Qed.
End TablesFacts.

(** ** The worked examples *)

(** C1. With the mapping of the SHA-OUT example of the docstring, the secret
    [Mysecretsig1875!?], [sha1] and [out=True] (allow-list
    [SHA_OUT_FILTER_WORDS]), [signature()] returns
    [B209960D5703DD1047F95A0F97655FFE5AC8BD52]. *)
Theorem sha_out_example_signature :
  ogone_signature data_sha_out "sha1" ogone_secret utf8 true
  = Ok "B209960D5703DD1047F95A0F97655FFE5AC8BD52".
Proof. vm_compute. reflexivity. Qed.

(** C2. With the mapping of the SHA-IN example of the docstring, the same
    secret, [sha1] and the default [out=False] (allow-list
    [SHA_IN_FILTER_WORDS]), [signature()] returns
    [EB52902BCC4B50DC1250E5A7C1068ECF97751256]. *)
Theorem sha_in_example_signature :
  ogone_signature data_sha_in "sha1" ogone_secret utf8 false
  = Ok "EB52902BCC4B50DC1250E5A7C1068ECF97751256".
Proof. vm_compute. reflexivity. Qed.

(** C3, at the input where the code departs from it. The docstring of the
    class states, for [OgoneSignature(dict(d='a', a='b'),
    hash_method='sha512', secret='c')], the sorted data
    [[('A','b'), ('D','a')]], the string to sign [A=bcD=ac] and the digest
    [B499...FB6A]. The code applies [SHA_IN_FILTER_WORDS], which holds
    neither [A] nor [D]: [_sort_data] gives the empty sequence, the string
    to sign is the secret [c] alone and [signature()] is the SHA-512
    digest of [c]. With an allow-list that holds [A] and [D] the same
    code gives what the docstring states. *)
Theorem doc_example_filtered :
  __init__ data_doc "sha512" (VStr "c") utf8 false = Ok ogone_doc /\
  _sort_data ogone_doc (data ogone_doc) = [] /\
  _merge_data ogone_doc (_sort_data ogone_doc (data ogone_doc)) = Ok "c" /\
  signature ogone_doc = Ok digest_c /\
  digest_c <> digest_A_b_c_D_a_c /\
  _sort_data_with ["A"; "D"] [] ogone_doc (data ogone_doc)
  = [("A", VStr "b"); ("D", VStr "a")] /\
  _merge_data ogone_doc [("A", VStr "b"); ("D", VStr "a")] = Ok "A=bcD=ac" /\
  _sign_string ogone_doc "A=bcD=ac" = Ok digest_A_b_c_D_a_c /\
  signature_with ["A"; "D"] [] ogone_doc = Ok digest_A_b_c_D_a_c.
Proof. vm_compute. repeat split; try reflexivity. discriminate. Qed.

(** ** Keys that differ in case only *)

(** C4, as stated, fails: for [{'Amount': '1', 'AMOUNT': '2'}] the
    canonical sequence holds both pairs under the key [AMOUNT]; nothing is
    collapsed and its keys are not distinct. *)
Lemma case_variants_both_kept :
  _sort_data ogone_two_cases data_two_cases
  = [("AMOUNT", VStr "1"); ("AMOUNT", VStr "2")] /\
  ~ NoDup (map fst (_sort_data ogone_two_cases data_two_cases)).
Proof.
  split; [reflexivity|].
  intros H. vm_compute in H. inversion H as [|? ? Hn _]. apply Hn. now left.
Qed.

(** C4, amended. [_sort_data] builds a list, not a mapping: the canonical
    sequence is the ascending arrangement of exactly one pair
    [(k.upper(), v)] for each entry of the mapping that passes the filter.
    It has as many pairs as entries pass, so two keys that differ in case
    only, both passing, give two pairs under the same uppercased key. *)
Theorem sort_data_keeps_every_passing_entry (self : OgoneSignature)
        (d : mapping) :
  let passing :=
    filter (fun kv => _filter_data self (upper (fst kv)) (snd kv)) d in
  Permutation (_sort_data self d)
              (map (fun kv => (upper (fst kv), snd kv)) passing) /\
  List.length (_sort_data self d) = List.length passing /\
  ascending pair_ltb (_sort_data self d).
Proof.
  intros passing. split; [|split].
  - apply sort_data_kept.
  - unfold _sort_data.
    rewrite (Permutation_length (sort_data_kept _ _ self d)).
    unfold kept. rewrite length_map. reflexivity.
  - apply (list_sort_ascending pair_ltb).
Qed.

(** ** Order of the mapping *)





(** ** What the filter keeps out *)

(** C6. In either direction, every pair of the canonical sequence has its
    key in the allow-list of that direction ([SHA_IN_FILTER_WORDS] for
    [out=False], [SHA_OUT_FILTER_WORDS] for [out=True]); and the entries
    whose uppercased key is not in it have no part in the canonical
    sequence nor in the string to sign: the mapping without them gives the
    same ones. *)
Theorem keys_outside_allow_list_excluded (self : OgoneSignature) (d : mapping) :
  let allowed :=
    filter (fun kv => py_in (upper (fst kv)) (applicable_words self)) d in
  Forall (fun p => py_in (fst p) (applicable_words self) = true)
         (_sort_data self d) /\
  _sort_data self allowed = _sort_data self d /\
  _merge_data self (_sort_data self allowed)
  = _merge_data self (_sort_data self d).
Proof.
  intros allowed.
  assert (_sort_data self allowed = _sort_data self d) as E.
  { apply sort_data_prefilter. intros [k v] Hf. simpl in *.
    apply filter_data_true in Hf. destruct Hf as (_ & _ & Hin & _).
    now rewrite upper_idem in Hin. }
  split; [|split].
  - apply Forall_forall. intros [K v] Hin. simpl.
    apply sort_data_In in Hin. destruct Hin as (k & _ & -> & Hf).
    apply filter_data_true in Hf. destruct Hf as (_ & _ & Hin & _).
    now rewrite upper_idem in Hin.
  - exact E.
  - now rewrite E.
Qed.

(** C7. In either direction, no pair of the canonical sequence has the
    value [''] or [None], whatever its key; and the entries with such a
    value have no part in the canonical sequence nor in the string to
    sign: the mapping without them gives the same ones. *)
Theorem empty_values_excluded (self : OgoneSignature) (d : mapping) :
  let filled :=
    filter (fun kv => negb (value_eqb (snd kv) (VStr "") || is_None (snd kv)))
           d in
  Forall (fun p => snd p <> VStr "" /\ snd p <> VNone) (_sort_data self d) /\
  _sort_data self filled = _sort_data self d /\
  _merge_data self (_sort_data self filled)
  = _merge_data self (_sort_data self d).
Proof.
  intros filled.
  assert (_sort_data self filled = _sort_data self d) as E.
  { apply sort_data_prefilter. intros [k v] Hf. simpl in *.
    apply filter_data_true in Hf. destruct Hf as (-> & -> & _). reflexivity. }
  split; [|split].
  - apply Forall_forall. intros [K v] Hin. simpl.
    apply sort_data_In in Hin. destruct Hin as (k & _ & _ & Hf).
    apply filter_data_true in Hf. destruct Hf as (He & Hn & _).
    split; intros ->; discriminate.
  - exact E.
  - now rewrite E.
Qed.

(** C8. Whatever the two allow-lists hold, also the key [SHASIGN] itself,
    and in either direction: no pair of the canonical sequence has the key
    [SHASIGN], and the entry of the mapping whose key is exactly [SHASIGN]
    has no part in the canonical sequence nor in the string to sign. *)
Theorem shasign_key_excluded (IN_WORDS OUT_WORDS : list string)
        (self : OgoneSignature) (d : mapping) :
  let unsigned := filter (fun kv => negb (fst kv =? "SHASIGN")%string) d in
  Forall (fun p => fst p <> "SHASIGN")
         (_sort_data_with IN_WORDS OUT_WORDS self d) /\
  _sort_data_with IN_WORDS OUT_WORDS self unsigned
  = _sort_data_with IN_WORDS OUT_WORDS self d /\
  _merge_data self (_sort_data_with IN_WORDS OUT_WORDS self unsigned)
  = _merge_data self (_sort_data_with IN_WORDS OUT_WORDS self d).
Proof.
  intros unsigned.
  assert (_sort_data_with IN_WORDS OUT_WORDS self unsigned
          = _sort_data_with IN_WORDS OUT_WORDS self d) as E.
  { apply sort_data_prefilter. intros [k v] Hf. simpl in *.
    apply filter_data_true in Hf. destruct Hf as (_ & _ & _ & Hs).
    destruct (String.eqb_spec k "SHASIGN") as [->|Hk]; trivial.
    discriminate. }
  split; [|split].
  - apply Forall_forall. intros [K v] Hin. simpl.
    apply sort_data_In in Hin. destruct Hin as (k & _ & -> & Hf).
    apply filter_data_true in Hf. destruct Hf as (_ & _ & _ & Hs).
    intros Hk. rewrite Hk in Hs. discriminate.
  - exact E.
  - now rewrite E.
Qed.

(** ** The constructor *)

(** [__init__] returns the instance exactly when the hash method is one of
    the three names and [str(secret)] is not empty. *)
Lemma init_ok_iff (d : mapping) (hm : string) (sec : value) (enc : codec)
      (o : bool) :
  __init__ d hm sec enc o = Ok (mkOgoneSignature d hm sec enc o) <->
  (hm = "sha1" \/ hm = "sha256" \/ hm = "sha512") /\ str sec <> "".
Proof.
  unfold __init__, py_in, copy. simpl.
  destruct (String.eqb_spec hm "sha1"), (String.eqb_spec hm "sha256"),
    (String.eqb_spec hm "sha512"); simpl;
    destruct (str sec) eqn:Hs; simpl; split;
    try discriminate; try tauto;
    try (intros _; split; [tauto|discriminate]); intros [? ?]; tauto.
Qed.

(** C9, at the input where the code departs from it: with the secret [None]
    and a supported hash method the constructor raises nothing, because
    [str(None)] is the non-empty string [None]; the instance it returns
    cannot sign, [_merge_data] raises on [None.join]. *)
Theorem init_accepts_None_secret :
  __init__ [] "sha1" VNone utf8 false
  = Ok (mkOgoneSignature [] "sha1" VNone utf8 false) /\
  signature (mkOgoneSignature [] "sha1" VNone utf8 false)
  = Raise AttributeError.
Proof. split; reflexivity. Qed.

(** ** The case of the key [SHASIGN] *)

(** C10. [_sort_data] hands [k.upper()] to [_filter_data], so the test
    against [SHASIGN] sees the uppercased key: in either direction and
    whatever the allow-lists hold, an entry whose key uppercases to
    [SHASIGN] is refused by the filter and is not in the canonical
    sequence. *)
Theorem shasign_excluded_in_any_case (IN_WORDS OUT_WORDS : list string)
        (self : OgoneSignature) (d : mapping) (k : string) (v : value) :
  upper k = "SHASIGN" ->
  _filter_data_with IN_WORDS OUT_WORDS self (upper k) v = false /\
  ~ In (upper k, v) (_sort_data_with IN_WORDS OUT_WORDS self d).
Proof.
  intros Hk. split.
  - destruct (_filter_data_with IN_WORDS OUT_WORDS self (upper k) v) eqn:Hf;
      trivial.
    apply filter_data_true in Hf. destruct Hf as (_ & _ & _ & Hs).
    rewrite Hk in Hs. discriminate.
  - intros Hin. apply sort_data_In in Hin.
    destruct Hin as (k' & _ & Hk' & Hf).
    apply filter_data_true in Hf. destruct Hf as (_ & _ & _ & Hs).
    rewrite <- Hk', Hk in Hs. discriminate.
Qed.

Lemma shasign_excluded_in_any_case_witness :
  _filter_data_with ["SHASIGN"] ["SHASIGN"]
    (mkOgoneSignature [("ShaSign", VStr "ab12")] "sha1" ogone_secret utf8 false)
    (upper "ShaSign") (VStr "ab12") = false /\
  ~ In (upper "ShaSign", VStr "ab12")
       (_sort_data_with ["SHASIGN"] ["SHASIGN"]
          (mkOgoneSignature [("ShaSign", VStr "ab12")] "sha1" ogone_secret
                            utf8 false)
          [("ShaSign", VStr "ab12")]).
Proof.
  apply shasign_excluded_in_any_case. reflexivity.
Defined.

(** * Further properties of the class *)

(** ** Strings *)

Lemma append_assoc (a b c : string) : ((a ++ b) ++ c = a ++ (b ++ c))%string.
Proof. induction a as [|x a IH]; simpl; trivial. now rewrite IH. Qed.

Lemma append_nil_r (a : string) : (a ++ "")%string = a.
Proof. induction a as [|x a IH]; simpl; trivial. now rewrite IH. Qed.

Lemma length_append (a b : string) :
  String.length (a ++ b) = (String.length a + String.length b)%nat.
Proof. induction a as [|x a IH]; simpl; trivial. now rewrite IH. Qed.

Lemma length_upper (s : string) : String.length (upper s) = String.length s.
Proof. induction s as [|c s IH]; simpl; trivial. now rewrite IH. Qed.

Lemma is_ascii_append (a b : string) :
  is_ascii (a ++ b) = is_ascii a && is_ascii b.
Proof.
  induction a as [|x a IH]; simpl; trivial.
  now rewrite IH, andb_assoc.
Qed.

Lemma upper_ascii_below_128 (c : ascii) :
  (N_of_ascii (upper_ascii c) <? 128)%N = (N_of_ascii c <? 128)%N.
Proof. destruct c as [[] [] [] [] [] [] [] []]; reflexivity. Qed.

Lemma is_ascii_upper (s : string) : is_ascii (upper s) = is_ascii s.
Proof.
  induction s as [|c s IH]; simpl; trivial.
  now rewrite upper_ascii_below_128, IH.
Qed.

Lemma is_ascii_uint (d : Decimal.uint) :
  is_ascii (NilEmpty.string_of_uint d) = true.
Proof. induction d; simpl; trivial. Qed.

Lemma str_int_ascii (z : Z) : is_ascii (str (VInt z)) = true.
Proof.
  simpl. destruct (Z.to_int z) as [d|d]; simpl.
  - destruct d; try reflexivity; apply (is_ascii_uint (_ d)).
  - destruct d; try reflexivity; apply (is_ascii_uint (_ d)).
Qed.

Lemma str_int_not_empty (z : Z) : str (VInt z) <> "".
Proof.
  simpl. destruct (Z.to_int z) as [d|d]; simpl; [|discriminate].
  destruct d; discriminate.
Qed.

(** [str(secret)] is empty for the empty string only. *)
Lemma str_empty_iff (v : value) : truthy (str v) = negb (value_eqb v (VStr "")).
Proof.
  destruct v as [|b|z|s]; simpl; trivial.
  - now destruct b.
  - pose proof (str_int_not_empty z) as H. simpl in H.
    destruct (NilZero.string_of_int (Z.to_int z)); [congruence|reflexivity].
  - now destruct s.
Qed.

(** The secret after every formatted pair is the secret between the pairs
    and once more at the end. *)
Lemma join_then_sep (sep x : string) (l : list string) :
  (join sep (x :: l) ++ sep)%string
  = flatten (map (fun p => (p ++ sep)%string) (x :: l)).
Proof.
  revert x. induction l as [|y l IH]; intros x.
  - simpl. now rewrite append_nil_r.
  - change (join sep (x :: y :: l)) with (x ++ sep ++ join sep (y :: l))%string.
    rewrite !append_assoc, IH. simpl. now rewrite !append_assoc.
Qed.

Lemma is_ascii_join (sep : string) (l : list string) :
  is_ascii sep = true -> Forall (fun p => is_ascii p = true) l ->
  is_ascii (join sep l) = true.
Proof.
  intros Hs. induction 1 as [|x l Hx Hl IH]; trivial.
  destruct l as [|y l]; trivial.
  change (join sep (x :: y :: l)) with (x ++ sep ++ join sep (y :: l))%string.
  now rewrite !is_ascii_append, Hx, Hs, IH.
Qed.

(** ** The digests *)

Lemma length_N_to_be (n : nat) (v : N) : List.length (hashlib.N_to_be n v) = n.
Proof.
  revert v. induction n as [|n IH]; intros v; simpl; trivial.
  rewrite length_app, IH. simpl. lia.
Qed.

Lemma N_to_be_bytes (n : nat) (v : N) :
  Forall (fun b => (b < 256)%N) (hashlib.N_to_be n v).
Proof.
  revert v. induction n as [|n IH]; intros v; simpl.
  - constructor.
  - apply Forall_app. split; [apply IH|].
    constructor; [|constructor].
    change 255%N with (N.ones 8). rewrite N.land_ones.
    now apply N.mod_lt.
Qed.

Lemma length_words_bytes (n : nat) (h : list N) :
  List.length (flat_map (hashlib.N_to_be n) h) = (n * List.length h)%nat.
Proof.
  induction h as [|x h IH]; simpl; [lia|].
  rewrite length_app, length_N_to_be, IH. lia.
Qed.

Lemma words_bytes_below_256 (n : nat) (h : list N) :
  Forall (fun b => (b < 256)%N) (flat_map (hashlib.N_to_be n) h).
Proof.
  induction h as [|x h IH]; simpl; [constructor|].
  apply Forall_app. split; [apply N_to_be_bytes|exact IH].
Qed.

Lemma fold_left_length {S X} (f : S -> X -> S) (size : S -> nat) (n : nat)
      (l : list X) (s : S) :
  (forall s x, size (f s x) = n) -> size s = n ->
  size (fold_left f l s) = n.
Proof.
  intros Hf. revert s. induction l as [|x l IH]; intros s Hs; simpl; trivial.
  apply IH, Hf.
Qed.

Lemma fold_left_length_keep {X} (f : list N -> X -> list N) (n : nat)
      (l : list X) (s : list N) :
  (forall s x, List.length s = n -> List.length (f s x) = n) ->
  List.length s = n -> List.length (fold_left f l s) = n.
Proof.
  intros Hf. revert s. induction l as [|x l IH]; intros s Hs; simpl; trivial.
  now apply IH, Hf.
Qed.

Lemma length_sha1_compress (h block : list N) :
  List.length h = 5%nat -> List.length (hashlib.sha1_compress h block) = 5%nat.
Proof.
  intros Hh. unfold hashlib.sha1_compress.
  rewrite length_map, length_combine, Hh.
  rewrite (fold_left_length hashlib.sha1_round (@List.length N) 5); trivial.
  now intros s [t wt].
Qed.

Lemma length_sha2_compress (w : N) (S0 S1 s0 s1 : N -> N) (K : list N)
      (wordbytes : nat) (h block : list N) :
  List.length h = 8%nat ->
  List.length (hashlib.sha2_compress w S0 S1 s0 s1 K wordbytes h block) = 8%nat.
Proof.
  intros Hh. unfold hashlib.sha2_compress.
  rewrite length_map, length_combine, Hh.
  rewrite (fold_left_length (hashlib.sha2_round w S0 S1) (@List.length N) 8);
    trivial.
  now intros s [kt wt].
Qed.

Lemma length_digest_hash (blk lenbytes wordbytes n : nat)
      (compress : list N -> list N -> list N) (h0 msg : list N) :
  (forall h b, List.length h = n -> List.length (compress h b) = n) ->
  List.length h0 = n ->
  List.length (hashlib.digest_hash blk lenbytes wordbytes compress h0 msg)
  = (wordbytes * n)%nat.
Proof.
  intros Hc Hh. unfold hashlib.digest_hash.
  rewrite length_words_bytes. f_equal. now apply fold_left_length_keep.
Qed.

Lemma length_hexdigest (bs : list N) :
  String.length (hashlib.hexdigest bs) = (2 * List.length bs)%nat.
Proof. induction bs as [|b bs IH]; simpl; trivial. rewrite IH. lia. Qed.

Lemma byte_hex_digits :
  forallb (fun n =>
             is_upper_hex_digit
               (upper_ascii (hashlib.hex_digit (N.shiftr (N.of_nat n) 4)))
             && is_upper_hex_digit
                  (upper_ascii (hashlib.hex_digit (N.land (N.of_nat n) 15))))
          (seq 0 256) = true.
Proof. vm_compute. reflexivity. Qed.

Lemma upper_hexdigest_hex (bs : list N) :
  Forall (fun b => (b < 256)%N) bs ->
  is_upper_hex (upper (hashlib.hexdigest bs)) = true.
Proof.
  induction 1 as [|b bs Hb _ IH]; trivial.
  cbn [hashlib.hexdigest upper is_upper_hex].
  pose proof (proj1 (forallb_forall _ _) byte_hex_digits (N.to_nat b)) as H.
  cbv beta in H. rewrite N2Nat.id in H.
  assert (In (N.to_nat b) (seq 0 256)) as Hin by (apply in_seq; lia).
  apply H in Hin. apply andb_true_iff in Hin. destruct Hin as [H1 H2].
  now rewrite H1, H2, IH.
Qed.

(** The digest that [_sign_string] returns for each accepted hash method. *)
Lemma sign_string_shape (self : OgoneSignature) (s : string) :
  py_in (hash_method self) ["sha1"; "sha256"; "sha512"] = true ->
  exists dg, _sign_string self s = Ok dg /\
             String.length dg = hexdigest_size (hash_method self) /\
             is_upper_hex dg = true.
Proof.
  unfold py_in, _sign_string, hashlib_getattr, hexdigest_size. simpl.
  destruct (String.eqb_spec (hash_method self) "sha1") as [E1|N1];
    [|destruct (String.eqb_spec (hash_method self) "sha256") as [E2|N2];
      [|destruct (String.eqb_spec (hash_method self) "sha512") as [E3|N3]]];
    simpl; intros Hm; try discriminate;
    eexists; (split; [reflexivity|]); split.
  - rewrite length_upper, length_hexdigest. unfold hashlib.sha1.
    rewrite (length_digest_hash _ _ _ 5); trivial.
    intros. now apply length_sha1_compress.
  - apply upper_hexdigest_hex, words_bytes_below_256.
  - rewrite length_upper, length_hexdigest. unfold hashlib.sha256.
    rewrite (length_digest_hash _ _ _ 8); trivial.
    intros. now apply length_sha2_compress.
  - apply upper_hexdigest_hex, words_bytes_below_256.
  - rewrite length_upper, length_hexdigest. unfold hashlib.sha512.
    rewrite (length_digest_hash _ _ _ 8); trivial.
    intros. now apply length_sha2_compress.
  - apply upper_hexdigest_hex, words_bytes_below_256.
Qed.

Lemma init_inv (d : mapping) (hm : string) (sec : value) (enc : codec)
      (o : bool) (self : OgoneSignature) :
  __init__ d hm sec enc o = Ok self ->
  self = mkOgoneSignature d hm sec enc o /\
  py_in hm ["sha1"; "sha256"; "sha512"] = true /\
  value_eqb sec (VStr "") = false.
Proof.
  unfold __init__, copy. rewrite str_empty_iff, negb_involutive.
  destruct (py_in hm _); simpl; try discriminate.
  destruct (value_eqb sec (VStr "")); simpl; try discriminate.
  intros E. inversion E. auto.
Qed.

(** ** Helpers on results, sorting and the comprehension *)

Lemma bind_Ok {A} (r : result A) : (x <- r ;; Ok x) = r.
Proof. now destruct r. Qed.

Lemma not_above_trans {A} (ltb : A -> A -> bool) `{StrictTotal A ltb}
      (x y z : A) :
  ltb y x = false -> ltb z y = false -> ltb z x = false.
Proof.
  intros Hyx Hzy. destruct (ltb z x) eqn:Hzx; trivial.
  destruct (ltb x y) eqn:Hxy.
  - rewrite (ltb_trans _ _ _ Hzx Hxy) in Hzy. discriminate.
  - rewrite (ltb_connex _ _ Hxy Hyx) in Hzx. congruence.
Qed.

Lemma pair_not_above_key (p q : string * value) :
  pair_ltb q p = false -> str_ltb (fst q) (fst p) = false.
Proof.
  unfold pair_ltb. destruct (String.eqb_spec (fst q) (fst p)) as [->|_]; simpl.
  - intros _. apply str_ltb_irrefl.
  - trivial.
Qed.

Lemma kept_filter_map (IN_WORDS OUT_WORDS : list string)
      (self : OgoneSignature) (d : mapping) :
  kept IN_WORDS OUT_WORDS self d
  = filter (fun p => _filter_data_with IN_WORDS OUT_WORDS self (fst p) (snd p))
           (map upper_key d).
Proof.
  unfold kept. induction d as [|[k v] d IH]; simpl; trivial.
  destruct (_filter_data_with IN_WORDS OUT_WORDS self (upper k) v); simpl;
    now rewrite IH.
Qed.

Lemma sort_data_ascii (IN_WORDS OUT_WORDS : list string)
      (self : OgoneSignature) (d : mapping) :
  forallb ascii_entry d = true ->
  Forall (fun p => is_ascii (fst p ++ "=" ++ str (snd p)) = true)
         (_sort_data_with IN_WORDS OUT_WORDS self d).
Proof.
  intros Hd. apply Forall_forall. intros [K v] Hin.
  apply sort_data_In in Hin. destruct Hin as (k & Hin & -> & _).
  apply (proj1 (forallb_forall _ _) Hd) in Hin.
  unfold ascii_entry in Hin. simpl in *.
  apply andb_true_iff in Hin. destruct Hin as [Hk Hv].
  rewrite !is_ascii_append, is_ascii_upper, Hk. simpl.
  destruct v as [|b|z|s]; trivial; [now destruct b|apply str_int_ascii].
Qed.

(** ** [_merge_data] *)

(** X1. With a [str] secret, the string that [_merge_data] encodes is every
    pair written [KEY=value] and followed by the secret; for the empty
    sequence it is the secret alone. *)
Theorem merge_data_secret_after_each_pair (self : OgoneSignature)
        (sec : string) (l : list (string * value)) :
  secret self = VStr sec ->
  _merge_data self l =
  encode (match l with
          | [] => sec
          | _ => flatten (map (fun kv => (fst kv ++ "=" ++ str (snd kv)
                                          ++ sec)%string) l)
          end) (encoding self).
Proof.
  intros Hs. unfold _merge_data. rewrite Hs.
  destruct l as [|p l]; trivial.
  f_equal.
  transitivity
    (flatten (map (fun s => (s ++ sec)%string)
                  (map (fun kv => (fst kv ++ "=" ++ str (snd kv))%string)
                       (p :: l)))).
  - cbn [map]. apply join_then_sep.
  - rewrite map_map. f_equal. apply map_ext. intros kv.
    now rewrite !append_assoc.
Qed.

Lemma merge_data_secret_after_each_pair_witness :
  _merge_data ogone_doc [("A", VStr "b"); ("D", VStr "a")] =
  encode (flatten (map (fun kv => (fst kv ++ "=" ++ str (snd kv) ++ "c")%string)
                       [("A", VStr "b"); ("D", VStr "a")]))
         (encoding ogone_doc).
Proof.
  apply (merge_data_secret_after_each_pair ogone_doc "c"). reflexivity.
Defined.

(** ** [_sign_string] *)

(** X2. On an instance that [__init__] returned, [_sign_string] raises on
    no input: it returns 40 characters for [sha1], 64 for [sha256] and 128
    for [sha512], each a digit or a capital [A]..[F]. *)
Theorem sign_string_after_init (d : mapping) (hm : string) (sec : value)
        (enc : codec) (o : bool) (self : OgoneSignature) (s : string) :
  __init__ d hm sec enc o = Ok self ->
  exists dg, _sign_string self s = Ok dg /\
             String.length dg = hexdigest_size hm /\
             is_upper_hex dg = true.
Proof.
  intros Hi. apply init_inv in Hi. destruct Hi as (-> & Hm & _).
  now apply (sign_string_shape (mkOgoneSignature d hm sec enc o)).
Qed.

Lemma sign_string_after_init_witness :
  exists dg, _sign_string ogone_doc "A=bcD=ac" = Ok dg /\
             String.length dg = hexdigest_size "sha512" /\
             is_upper_hex dg = true.
Proof.
  apply (sign_string_after_init data_doc "sha512" (VStr "c") utf8 false).
  reflexivity.
Defined.

(** ** [__init__] and the secret *)

(** X3. [__init__] raises [AssertionError] when the hash method is not one
    of the three names or the secret is the empty string, and in no other
    case: [None] and every [int] pass the test on [str(secret)]. Otherwise
    it returns the instance holding its arguments. *)
Theorem init_result (d : mapping) (hm : string) (sec : value) (enc : codec)
        (o : bool) :
  __init__ d hm sec enc o =
  if py_in hm ["sha1"; "sha256"; "sha512"] && negb (value_eqb sec (VStr ""))
  then Ok (mkOgoneSignature d hm sec enc o)
  else Raise AssertionError.
Proof.
  unfold __init__, copy. rewrite str_empty_iff.
  destruct (py_in hm _); simpl; trivial.
  now destruct (value_eqb sec (VStr "")).
Qed.

(** X4. With an accepted hash method, [signature()] raises
    [AttributeError] exactly when the secret is not a [str] ([None], a
    [bool] or an [int]), whatever the mapping holds. *)
Theorem signature_attribute_error_iff (self : OgoneSignature) :
  py_in (hash_method self) ["sha1"; "sha256"; "sha512"] = true ->
  signature self = Raise AttributeError <-> forall s, secret self <> VStr s.
Proof.
  intros Hm. unfold signature, signature_with, _merge_data.
  destruct (secret self) as [|b|z|sec]; simpl.
  - split; [intros _ s; discriminate|reflexivity].
  - split; [intros _ s; discriminate|reflexivity].
  - split; [intros _ s; discriminate|reflexivity].
  - split; [|intros H; now destruct (H sec)].
    unfold encode. destruct (encoding self); try (simpl; discriminate);
      (destruct (is_ascii _); simpl; [|discriminate]);
      match goal with |- context [_sign_string self ?p] =>
        destruct (sign_string_shape self p Hm) as (dg & -> & _) end;
      discriminate.
Qed.

Lemma signature_attribute_error_iff_witness :
  signature (mkOgoneSignature data_sha_in "sha256" (VInt 1875) utf8 false)
  = Raise AttributeError <->
  forall s, secret (mkOgoneSignature data_sha_in "sha256" (VInt 1875) utf8
                                     false) <> VStr s.
Proof.
  apply signature_attribute_error_iff. reflexivity.
Defined.

(** ** [signature] *)

(** X5. When [__init__] accepted a [str] secret and the secret, the keys
    and the [str] values of the mapping hold ASCII bytes only: with the
    encoding [utf8], [latin1] or [ascii], [signature()] raises nothing and
    returns a digest of 40, 64 or 128 capital hexadecimal digits, by the
    hash method; with an encoding name that the codec registry does not
    know, which [__init__] stores unchecked, [signature()] raises
    [LookupError]. *)
Theorem signature_succeeds_on_ascii (d : mapping) (hm sec : string)
        (enc : codec) (o : bool) (self : OgoneSignature) :
  __init__ d hm (VStr sec) enc o = Ok self ->
  is_ascii sec = true ->
  forallb ascii_entry d = true ->
  match enc with
  | unknown_codec _ => signature self = Raise LookupError
  | _ => exists dg, signature self = Ok dg /\
                    String.length dg = hexdigest_size hm /\
                    is_upper_hex dg = true
  end.
Proof.
  intros Hi Hs Hd. apply init_inv in Hi. destruct Hi as (-> & Hm & _).
  unfold signature, signature_with, _merge_data, encode. cbn [secret encoding].
  destruct enc; trivial;
    (rewrite is_ascii_append, Hs, andb_true_r;
     rewrite is_ascii_join;
     [ cbn [bind]; rewrite bind_Ok;
       match goal with |- context [_sign_string ?s ?p] =>
         now apply (sign_string_shape s p) end
     | trivial
     | apply Forall_map; now apply sort_data_ascii ]).
Qed.

Lemma signature_succeeds_on_ascii_witness :
  exists dg,
    signature (mkOgoneSignature data_sha_out "sha256" ogone_secret utf8 true)
    = Ok dg /\
    String.length dg = hexdigest_size "sha256" /\
    is_upper_hex dg = true.
Proof.
  apply (signature_succeeds_on_ascii data_sha_out "sha256" "Mysecretsig1875!?"
           utf8 true); reflexivity.
Defined.

(** X6. When no entry of the mapping passes the filter, the empty mapping
    included, [signature()] signs the secret alone. *)
Theorem signature_of_nothing_kept (self : OgoneSignature) (sec : string) :
  secret self = VStr sec ->
  forallb (fun kv => negb (_filter_data self (upper (fst kv)) (snd kv)))
          (data self) = true ->
  signature self
  = (pre_sign_string <- encode sec (encoding self) ;;
     _sign_string self pre_sign_string).
Proof.
  intros Hs Hd. unfold signature, signature_with.
  assert (_sort_data_with SHA_IN_FILTER_WORDS SHA_OUT_FILTER_WORDS self
            (data self) = []) as ->.
  { unfold _sort_data_with, items.
    replace (filter _ (data self)) with (@nil (string * value)); trivial.
    symmetry. induction (data self) as [|kv l IH]; trivial.
    simpl in Hd. apply andb_true_iff in Hd. destruct Hd as [H1 H2].
    simpl. unfold _filter_data in H1.
    destruct (_filter_data_with _ _ self (upper (fst kv)) (snd kv));
      [discriminate|now apply IH]. }
  unfold _merge_data. rewrite Hs. simpl.
  destruct (encode sec (encoding self)); simpl; trivial. apply bind_Ok.
Qed.

Lemma signature_of_nothing_kept_witness :
  signature ogone_doc
  = (pre_sign_string <- encode "c" (encoding ogone_doc) ;;
     _sign_string ogone_doc pre_sign_string).
Proof.
  apply signature_of_nothing_kept; reflexivity.
Defined.

(** ** [_sort_data] *)

Lemma Sorted_weaken {A} (R R' : A -> A -> Prop) (l : list A) :
  (forall x y, R x y -> R' x y) -> Sorted R l -> Sorted R' l.
Proof.
  intros HR. induction 1 as [|x l _ IH Hd]; constructor; trivial.
  destruct Hd; constructor. now apply HR.
Qed.

(** X7. Every key of the canonical sequence is in upper case, and the
    sequence is in ascending order of its keys: no key is above a key that
    comes later. *)
Theorem sort_data_keys_upper_and_sorted (self : OgoneSignature) (d : mapping) :
  Forall (fun p => upper (fst p) = fst p) (_sort_data self d) /\
  StronglySorted (fun p q => str_ltb (fst q) (fst p) = false)
                 (_sort_data self d).
Proof.
  split.
  - apply Forall_forall. intros [K v] Hin.
    apply sort_data_In in Hin. destruct Hin as (k & _ & -> & _).
    apply upper_idem.
  - apply Sorted_StronglySorted.
    + intros x y z. apply (not_above_trans str_ltb).
    + apply (Sorted_weaken (fun p q => pair_ltb q p = false)).
      * intros p q. apply pair_not_above_key.
      * apply (list_sort_ascending pair_ltb).
Qed.

(** X9. Mappings that agree once their keys are uppercased get the same
    canonical sequence and the same result from [signature()]: the case of
    the keys of the caller does not count. *)
Theorem signature_ignores_key_case (d1 d2 : mapping) (hm : string)
        (sec : value) (enc : codec) (o : bool) :
  map upper_key d1 = map upper_key d2 ->
  _sort_data (mkOgoneSignature d1 hm sec enc o) d1
  = _sort_data (mkOgoneSignature d2 hm sec enc o) d2 /\
  signature (mkOgoneSignature d1 hm sec enc o)
  = signature (mkOgoneSignature d2 hm sec enc o).
Proof.
  intros E.
  assert (_sort_data (mkOgoneSignature d1 hm sec enc o) d1
          = _sort_data (mkOgoneSignature d2 hm sec enc o) d2) as Hs.
  { unfold _sort_data, _sort_data_with, items.
    fold (kept SHA_IN_FILTER_WORDS SHA_OUT_FILTER_WORDS
               (mkOgoneSignature d1 hm sec enc o) d1).
    fold (kept SHA_IN_FILTER_WORDS SHA_OUT_FILTER_WORDS
               (mkOgoneSignature d2 hm sec enc o) d2).
    rewrite !kept_filter_map, E. f_equal. }
  split; trivial.
  unfold signature, signature_with. simpl.
  unfold _sort_data in Hs. now rewrite Hs.
Qed.

Lemma signature_ignores_key_case_witness :
  _sort_data (mkOgoneSignature [("orderID", VInt 1234); ("pspid", VStr "x")]
                               "sha1" ogone_secret utf8 false)
             [("orderID", VInt 1234); ("pspid", VStr "x")]
  = _sort_data (mkOgoneSignature [("ORDERID", VInt 1234); ("PSPID", VStr "x")]
                                 "sha1" ogone_secret utf8 false)
               [("ORDERID", VInt 1234); ("PSPID", VStr "x")] /\
  signature (mkOgoneSignature [("orderID", VInt 1234); ("pspid", VStr "x")]
                              "sha1" ogone_secret utf8 false)
  = signature (mkOgoneSignature [("ORDERID", VInt 1234); ("PSPID", VStr "x")]
                                "sha1" ogone_secret utf8 false).
Proof.
  apply signature_ignores_key_case. reflexivity.
Defined.

(** ** Values and their [str] form *)

Lemma insert_map {A} (ltb : A -> A -> bool) (g : A -> A) (x : A)
      (l : list A) :
  (forall y, In y l -> ltb (g y) (g x) = ltb y x) ->
  insert ltb (g x) (map g l) = map g (insert ltb x l).
Proof.
  induction l as [|y l IH]; intros H; simpl; trivial.
  rewrite (H y (or_introl eq_refl)).
  destruct (ltb y x); simpl; trivial.
  rewrite IH; trivial. intros z Hz. apply H. now right.
Qed.

Lemma list_sort_map {A} (ltb : A -> A -> bool) (g : A -> A) (l : list A) :
  NoDup l ->
  (forall x y, In x l -> In y l -> x <> y -> ltb (g x) (g y) = ltb x y) ->
  list_sort ltb (map g l) = map g (list_sort ltb l).
Proof.
  induction 1 as [|x l Hx Hl IH]; intros H; simpl; trivial.
  fold (list_sort ltb (map g l)). fold (list_sort ltb l).
  rewrite IH.
  - apply insert_map. intros y Hy.
    apply (Permutation_in _ (list_sort_perm ltb l)) in Hy.
    apply H; [now right|now left|]. intros ->. contradiction.
  - intros a b Ha Hb. apply H; now right.
Qed.

Lemma NoDup_map_filter {A B} (h : A -> B) (f : A -> bool) (l : list A) :
  NoDup (map h l) -> NoDup (map h (filter f l)).
Proof.
  induction l as [|x l IH]; simpl; trivial.
  intros H. inversion H as [|? ? Hn Hd]; subst.
  destruct (f x); simpl; [|now apply IH].
  constructor; [|now apply IH].
  intros Hin. apply Hn. apply in_map_iff in Hin.
  destruct Hin as (y & E & Hy). apply filter_In in Hy.
  apply in_map_iff. exists y. tauto.
Qed.

Lemma filter_data_stringified (IN_WORDS OUT_WORDS : list string)
      (self : OgoneSignature) (k : string) (v : value) :
  v <> VNone ->
  _filter_data_with IN_WORDS OUT_WORDS self k (VStr (str v))
  = _filter_data_with IN_WORDS OUT_WORDS self k v.
Proof.
  intros Hv. unfold _filter_data_with.
  destruct v as [|b|z|s]; [congruence|now destruct b| |reflexivity].
  replace (value_eqb (VStr (str (VInt z))) (VStr "")) with false; trivial.
  symmetry. pose proof (str_int_not_empty z) as H.
  cbn [value_eqb]. now destruct (String.eqb_spec (str (VInt z)) "").
Qed.

Lemma filter_stringified (IN_WORDS OUT_WORDS : list string)
      (s1 s2 : OgoneSignature) (d : mapping) :
  out s1 = out s2 ->
  Forall (fun kv => snd kv <> VNone) d ->
  filter (fun kv => _filter_data_with IN_WORDS OUT_WORDS s1 (upper (fst kv))
                                      (snd kv)) (map stringified d)
  = map stringified
        (filter (fun kv => _filter_data_with IN_WORDS OUT_WORDS s2
                             (upper (fst kv)) (snd kv)) d).
Proof.
  intros Ho. induction 1 as [|kv l Hkv _ IH]; simpl; trivial.
  rewrite (filter_data_out_only _ _ s1 s2), filter_data_stringified; trivial.
  destruct (_filter_data_with _ _ s2 _ _); simpl; now rewrite IH.
Qed.

(** X10. [signature()] does not tell an [int] from the [str] of its
    decimal form: when the keys of the mapping stay distinct once
    uppercased and no value is [None], replacing every value by its [str]
    leaves the result as it was. *)
Theorem signature_of_stringified_values (d : mapping) (hm : string)
        (sec : value) (enc : codec) (o : bool) :
  NoDup (map (fun kv => upper (fst kv)) d) ->
  Forall (fun kv => snd kv <> VNone) d ->
  signature (mkOgoneSignature (map stringified d) hm sec enc o)
  = signature (mkOgoneSignature d hm sec enc o).
Proof.
  intros Hk Hv. unfold signature, signature_with. cbn [data].
  set (s1 := mkOgoneSignature (map stringified d) hm sec enc o).
  set (s2 := mkOgoneSignature d hm sec enc o).
  set (f := fun kv : string * value =>
              _filter_data_with SHA_IN_FILTER_WORDS SHA_OUT_FILTER_WORDS s2
                                (upper (fst kv)) (snd kv)).
  assert (_sort_data_with SHA_IN_FILTER_WORDS SHA_OUT_FILTER_WORDS s1
            (map stringified d)
          = map stringified
                (_sort_data_with SHA_IN_FILTER_WORDS SHA_OUT_FILTER_WORDS s2 d))
    as ->.
  { unfold _sort_data_with, items.
    rewrite (filter_stringified _ _ s1 s2 d eq_refl Hv). fold f.
    rewrite map_map.
    rewrite <- (map_map upper_key stringified).
    change (fun kv : string * value => (upper (fst kv), snd kv))
      with upper_key.
    apply list_sort_map.
    - apply (NoDup_map_inv fst). rewrite map_map.
      now apply (NoDup_map_filter (fun kv => upper (fst kv))).
    - intros [K1 v1] [K2 v2] H1 H2 Hne. unfold pair_ltb, stringified. simpl.
      destruct (String.eqb_spec K1 K2) as [->|_]; trivial.
      exfalso.
      assert (NoDup (map fst (map upper_key (filter f d)))) as Hd.
      { rewrite map_map.
        now apply (NoDup_map_filter (fun kv => upper (fst kv))). }
      clear - H1 H2 Hne Hd.
      induction (map upper_key (filter f d)) as [|p l IH]; [easy|].
      simpl in Hd. inversion Hd as [|? ? Hn Hd']; subst.
      destruct H1 as [->|H1], H2 as [E|H2].
      + inversion E. congruence.
      + apply Hn. now apply (in_map fst) in H2.
      + subst p. apply Hn. now apply (in_map fst) in H1.
      + now apply IH. }
  unfold _merge_data. cbn [secret encoding]. rewrite map_map.
  reflexivity.
Qed.

Lemma signature_of_stringified_values_witness :
  signature (mkOgoneSignature
               (map stringified [("amount", VInt 1500); ("currency", VStr "EUR")])
               "sha1" ogone_secret utf8 false)
  = signature (mkOgoneSignature
                 [("amount", VInt 1500); ("currency", VStr "EUR")]
                 "sha1" ogone_secret utf8 false).
Proof.
  apply signature_of_stringified_values.
  - simpl. repeat constructor; simpl; intuition discriminate.
  - repeat constructor; discriminate.
Defined.

(** X11. [_merge_data] writes values as they are: a [str] value that holds
    the secret followed by [KEY=value] gives the same string to sign as two
    separate pairs, so the string to sign does not determine the pairs it
    was made from. *)
Theorem merge_data_values_not_delimited (self : OgoneSignature)
        (sec k1 v1 k2 v2 : string) :
  secret self = VStr sec ->
  _merge_data self [(k1, VStr (v1 ++ sec ++ k2 ++ "=" ++ v2))]
  = _merge_data self [(k1, VStr v1); (k2, VStr v2)].
Proof.
  intros Hs. unfold _merge_data. rewrite Hs.
  cbn [map join fst snd str]. now rewrite !append_assoc.
Qed.

Lemma merge_data_values_not_delimited_witness :
  _merge_data ogone_doc [("A", VStr ("b" ++ "c" ++ "D" ++ "=" ++ "a"))]
  = _merge_data ogone_doc [("A", VStr "b"); ("D", VStr "a")].
Proof.
  apply (merge_data_values_not_delimited ogone_doc "c"). reflexivity.
Defined.
